(** * Service worker of the AI Interior site (sw.js): a shallow embedding

    The service worker is modelled over an explicit world holding the
    browser's Cache Storage (named stores of URL-keyed responses) and a log
    of the calls the worker makes on it and on the network.  The handlers
    are state-passing functions in a small state monad; the network is a
    Section variable returning [None] where [fetch] rejects. *)

From Stdlib Require Import String List Bool ZArith Lia.
Import ListNotations.
Open Scope string_scope.

(** ** Data model *)

(** A parsed [URL]: [origin] and [href] as the URL API computes them. *)
Record URL := mkURL { scheme : string; host : string; pathname : string }.

Definition origin (u : URL) : string := scheme u ++ "://" ++ host u.
Definition href (u : URL) : string := origin u ++ pathname u.

Record Request := mkRequest { req_url : URL; method : string; mode : string }.

Record Response := mkResponse {
  status : Z; statusText : string; body : string;
  headers : list (string * string) }.

(** [response.ok]: status in the 200-299 range. *)
Definition ok (r : Response) : bool := (200 <=? status r)%Z && (status r <=? 299)%Z.

(** A cache store maps request URLs to responses; Cache Storage is the list
    of named stores, in creation order. *)
Definition Store := list (string * Response).
Definition CacheStorage := list (string * Store).

(** Calls made by the worker, newest first in the log. *)
Inductive Event :=
| EvOpen (name : string)
| EvMatch (name : string) (key : string)      (* cache.match on one store *)
| EvMatchAll (key : string)                   (* caches.match over all stores *)
| EvPut (name : string) (key : string)        (* cache.put *)
| EvKeys
| EvDelete (name : string)
| EvFetch (key : string)                      (* fetch(request) *)
| EvSkipWaiting
| EvClaim.

Record World := mkWorld { caches : CacheStorage; log : list Event }.

(** ** A small state monad over the world *)

Definition M (A : Type) := World -> A * World.
Definition ret {A} (a : A) : M A := fun w => (a, w).
Definition bind {A B} (m : M A) (k : A -> M B) : M B :=
  fun w => let (a, w') := m w in k a w'.

Notation "x <- c1 ;; c2" := (bind c1 (fun x => c2))
  (at level 61, c1 at next level, right associativity).
Notation "c1 ;; c2" := (bind c1 (fun _ => c2))
  (at level 61, right associativity).

Definition emit (e : Event) : M unit :=
  fun w => (tt, mkWorld (caches w) (e :: log w)).

Definition modify_caches (f : CacheStorage -> CacheStorage) : M unit :=
  fun w => (tt, mkWorld (f (caches w)) (log w)).

Definition get_caches : M CacheStorage := fun w => (caches w, w).

Fixpoint mapM_ {A} (f : A -> M unit) (l : list A) : M unit :=
  match l with
  | [] => ret tt
  | x :: xs => f x ;; mapM_ f xs
  end.

(** ** Store primitives *)

Fixpoint assoc {V} (k : string) (l : list (string * V)) : option V :=
  match l with
  | [] => None
  | (k', v) :: l' => if String.eqb k k' then Some v else assoc k l'
  end.

Definition store_of (cs : CacheStorage) (name : string) : Store :=
  match assoc name cs with Some s => s | None => [] end.

Definition has_store (cs : CacheStorage) (name : string) : bool :=
  match assoc name cs with Some _ => true | None => false end.

(** [cache.match(request)]: only GET requests match (no [ignoreMethod]). *)
Definition store_match (s : Store) (r : Request) : option Response :=
  if String.eqb (method r) "GET" then assoc (href (req_url r)) s else None.

Fixpoint update_store (name : string) (f : Store -> Store) (cs : CacheStorage)
  : CacheStorage :=
  match cs with
  | [] => []
  | (n, s) :: cs' =>
      if String.eqb name n then (n, f s) :: update_store name f cs'
      else (n, s) :: update_store name f cs'
  end.

Definition store_put (k : string) (v : Response) (s : Store) : Store :=
  (k, v) :: filter (fun p => negb (String.eqb k (fst p))) s.

(** [caches.open(name)]: creates the store at the end if it is absent. *)
Definition open_cs (name : string) (cs : CacheStorage) : CacheStorage :=
  if has_store cs name then cs else (cs ++ [(name, [])])%list.

Definition caches_open (name : string) : M unit :=
  emit (EvOpen name) ;; modify_caches (open_cs name).

Definition cache_match (name : string) (r : Request) : M (option Response) :=
  emit (EvMatch name (href (req_url r))) ;;
  cs <- get_caches ;;
  ret (store_match (store_of cs name) r).

(** [cache.put(request, response)]: the Cache API refuses non-GET requests
    (the returned promise rejects and nothing is stored). *)
Definition cache_put (name : string) (r : Request) (v : Response) : M unit :=
  emit (EvPut name (href (req_url r))) ;;
  if String.eqb (method r) "GET"
  then modify_caches (update_store name (store_put (href (req_url r)) v))
  else ret tt.

Fixpoint match_all (cs : CacheStorage) (r : Request) : option Response :=
  match cs with
  | [] => None
  | (_, s) :: cs' =>
      match store_match s r with Some v => Some v | None => match_all cs' r end
  end.

(** [caches.match(request)]: the first store, in creation order, that has it. *)
Definition caches_match (r : Request) : M (option Response) :=
  emit (EvMatchAll (href (req_url r))) ;;
  cs <- get_caches ;;
  ret (match_all cs r).

Definition caches_keys : M (list string) :=
  emit EvKeys ;; cs <- get_caches ;; ret (map fst cs).

Definition caches_delete (name : string) : M unit :=
  emit (EvDelete name) ;;
  modify_caches (filter (fun p => negb (String.eqb name (fst p)))).

Definition skipWaiting : M unit := emit EvSkipWaiting.
Definition clients_claim : M unit := emit EvClaim.

(** [includes] and [startsWith] on strings. *)
Fixpoint includes (needle hay : string) : bool :=
  match hay with
  | EmptyString => String.prefix needle hay
  | String _ rest => String.prefix needle hay || includes needle rest
  end.

Definition startsWith (s p : string) : bool := String.prefix p s.

(** ** Configuration constants of sw.js *)

Definition CACHE_VERSION := "ai-interior-v1.0.0".
Definition CACHE_NAME := CACHE_VERSION ++ "::static".
Definition RUNTIME_CACHE := CACHE_VERSION ++ "::runtime".

Definition PRECACHE_ASSETS : list string := [
  "/"; "/index.html";
  "/assets/css/main.css"; "/assets/css/components.css";
  "/assets/js/main.js"; "/assets/js/theme.js"; "/assets/js/navigation.js";
  "/assets/js/animations.js"; "/assets/js/portfolio.js"; "/assets/js/utils.js";
  "/assets/js/form-handler.js";
  "/components/header.html"; "/components/hero-section.html";
  "/components/about-section.html"; "/components/services-section.html";
  "/components/portfolio-section.html"; "/components/why-choose-section.html";
  "/components/process-section.html"; "/components/testimonials-section.html";
  "/components/blog-section.html"; "/components/contact-section.html";
  "/components/footer.html"].

Definition RUNTIME_CACHE_URLS : list string := [
  "https://fonts.googleapis.com";
  "https://fonts.gstatic.com";
  "https://cdnjs.cloudflare.com"].

(** Settlement of a promise handed to [event.waitUntil]. *)
Inductive Settled := Fulfilled | Rejected.

(** What the fetch listener does with an event: no [respondWith] call (the
    browser performs the request itself), or [respondWith] of a promise that
    yields a response or rejects ([None]). *)
Inductive Handled :=
| NoRespond
| RespondWith (p : M (option Response)).

Definition synthetic (st : Z) (txt bdy : string) (hs : list (string * string)) :=
  mkResponse st txt bdy hs.

Section Worker.

(** The worker's own [location], and the network: [network r] is the
    response of [fetch(r)], [None] where the fetch rejects. *)
Variable location : URL.
Variable network : Request -> option Response.

(** A root-relative URL string resolved against the worker's location, as
    [cache.match('/offline.html')] or [cache.addAll([...])] do. *)
Definition resolve (path : string) : URL :=
  mkURL (scheme location) (host location) path.

Definition get_request (path : string) : Request :=
  mkRequest (resolve path) "GET" "cors".

Definition fetch (r : Request) : M (option Response) :=
  emit (EvFetch (href (req_url r))) ;; ret (network r).

Fixpoint fetch_all (paths : list string) : M (list (Request * option Response)) :=
  match paths with
  | [] => ret []
  | p :: ps =>
      res <- fetch (get_request p) ;;
      rest <- fetch_all ps ;;
      ret ((get_request p, res) :: rest)
  end.

Definition all_ok (rs : list (Request * option Response)) : bool :=
  forallb (fun p => match snd p with Some v => ok v | None => false end) rs.

Fixpoint put_all (name : string) (rs : list (Request * option Response)) : M unit :=
  match rs with
  | [] => ret tt
  | (r, Some v) :: rs' => cache_put name r v ;; put_all name rs'
  | (_, None) :: rs' => put_all name rs'
  end.

(** [cache.addAll(urls)] (Cache API): every URL is fetched; if one fetch
    rejects or one response is not ok the promise rejects and nothing is
    stored; otherwise every response is stored. *)
Definition cache_addAll (name : string) (paths : list string) : M Settled :=
  rs <- fetch_all paths ;;
  if all_ok rs then put_all name rs ;; ret Fulfilled else ret Rejected.

(** install listener: the promise passed to [event.waitUntil]. *)
Definition on_install : M Settled :=
  caches_open CACHE_NAME ;;
  added <- cache_addAll CACHE_NAME PRECACHE_ASSETS ;;
  match added with
  | Fulfilled => skipWaiting ;; ret Fulfilled
  | Rejected => (* .catch((error) => console.error(...)) *) ret Fulfilled
  end.

(** activate listener. *)
Definition activate_one (cacheName : string) : M unit :=
  if negb (String.eqb cacheName CACHE_NAME) && negb (String.eqb cacheName RUNTIME_CACHE)
  then caches_delete cacheName
  else ret tt.

Definition on_activate : M unit :=
  cacheNames <- caches_keys ;;
  mapM_ activate_one cacheNames ;;
  clients_claim.

Definition offline_503 : Response :=
  synthetic 503 "Service Unavailable" "Offline - Content not available"
    [("Content-Type", "text/plain")].

Definition cacheFirst (request : Request) (cacheName : string) : M Response :=
  caches_open cacheName ;;
  cached <- cache_match cacheName request ;;
  match cached with
  | Some c => ret c
  | None =>
      res <- fetch request ;;
      match res with
      | Some response =>
          (if ok response then cache_put cacheName request response else ret tt) ;;
          ret response
      | None =>
          offlinePage <- cache_match cacheName (get_request "/offline.html") ;;
          match offlinePage with
          | Some p => ret p
          | None => ret offline_503
          end
      end
  end.

Definition networkFirst_503 : Response :=
  synthetic 503 "Service Unavailable" "Offline" [].

Definition networkFirst (request : Request) : M Response :=
  caches_open RUNTIME_CACHE ;;
  res <- fetch request ;;
  match res with
  | Some response =>
      (if ok response then cache_put RUNTIME_CACHE request response else ret tt) ;;
      ret response
  | None =>
      cached <- cache_match RUNTIME_CACHE request ;;
      match cached with
      | Some c => ret c
      | None =>
          if String.eqb (mode request) "navigate" then
            o <- caches_match (get_request "/offline.html") ;;
            offlinePage <- (match o with
                            | Some p => ret (Some p)
                            | None => caches_match (get_request "/index.html")
                            end) ;;
            match offlinePage with
            | Some p => ret p
            | None => ret networkFirst_503
            end
          else ret networkFirst_503
      end
  end.

Definition shouldCacheExternal (url : URL) : bool :=
  existsb (fun cacheUrl => startsWith (href url) cacheUrl) RUNTIME_CACHE_URLS.

Definition lift_some (m : M Response) : M (option Response) :=
  r <- m ;; ret (Some r).

(** fetch listener. *)
Definition on_fetch (request : Request) : Handled :=
  let url := req_url request in
  if negb (String.eqb (origin url) (origin location)) then
    if shouldCacheExternal url
    then RespondWith (lift_some (cacheFirst request RUNTIME_CACHE))
    else NoRespond
  else if includes "/api/" (href url) then
    RespondWith (lift_some (networkFirst request))
  else if negb (String.eqb (method request) "GET") then
    RespondWith (fetch request)
  else if String.eqb (mode request) "navigate" then
    RespondWith (lift_some (networkFirst request))
  else RespondWith (lift_some (cacheFirst request CACHE_NAME)).

End Worker.

(** ** Message, push and notification listeners *)

(** [event.data] of a message: [None] where it is falsy; otherwise its
    [type] and [urls] fields ([None] where undefined). *)
Record MessageData := mkMessageData {
  msg_type : option string; msg_urls : option (list string) }.

Definition type_is (d : MessageData) (t : string) : bool :=
  match msg_type d with Some t' => String.eqb t' t | None => false end.

Section Messages.

Variable location : URL.
Variable network : Request -> option Response.

(** CLEAR_CACHE: every store named by [caches.keys()] is deleted. *)
Definition clear_all_caches : M unit :=
  cacheNames <- caches_keys ;; mapM_ caches_delete cacheNames.

(** CACHE_URLS: [event.data.urls || []] added to the runtime store; the
    URL strings are root-relative paths resolved against the location. *)
Definition cache_urls (d : MessageData) : M unit :=
  let urlsToCache := match msg_urls d with Some us => us | None => [] end in
  caches_open RUNTIME_CACHE ;;
  _ <- cache_addAll location network RUNTIME_CACHE urlsToCache ;;
  ret tt.

(** message listener: three independent [if]s on [event.data.type]. *)
Definition on_message (data : option MessageData) : M unit :=
  (match data with
   | Some d => if type_is d "SKIP_WAITING" then skipWaiting else ret tt
   | None => ret tt
   end) ;;
  (match data with
   | Some d => if type_is d "CLEAR_CACHE" then clear_all_caches else ret tt
   | None => ret tt
   end) ;;
  (match data with
   | Some d => if type_is d "CACHE_URLS" then cache_urls d else ret tt
   | None => ret tt
   end).

End Messages.






(** ** Concrete inputs *)

Module Sample.

Definition site : URL := mkURL "https" "ai-interior.example" "/".

Definition page (bdy : string) : Response := mkResponse 200 "OK" bdy [].
Definition not_found : Response := mkResponse 404 "Not Found" "" [].

(** Every request succeeds, with its URL as body. *)
Definition online (r : Request) : option Response := Some (page (href (req_url r))).

(** Every request rejects. *)
Definition offline (_ : Request) : option Response := None.

(** Only [path] of the site answers 404. *)
Definition one_404 (path : string) (r : Request) : option Response :=
  if String.eqb (href (req_url r)) (href (resolve site path))
  then Some not_found else online r.

Definition empty_world : World := mkWorld [] [].

(** Cache Storage after a successful install. *)
Definition installed_world : World := snd (on_install site online empty_world).

(** A same-origin form POST to an API path. *)
Definition api_post : Request := mkRequest (resolve site "/api/contact") "POST" "navigate".

(** A cross-origin stylesheet on a host that extends an allow-listed one. *)
Definition lookalike : Request :=
  mkRequest (mkURL "https" "fonts.googleapis.com.evil.example" "/x.css") "GET" "no-cors".

(** An allow-listed font stylesheet. *)
Definition font_css : Request :=
  mkRequest (mkURL "https" "fonts.googleapis.com" "/css2") "GET" "no-cors".

(** A stylesheet of the site, and a page of the site. *)
Definition main_css : Request := mkRequest (resolve site "/assets/css/main.css") "GET" "no-cors".
Definition about_page : Request := mkRequest (resolve site "/about") "GET" "navigate".

(** Only the static store exists, holding an offline page. *)
Definition static_offline_world : World :=
  mkWorld [(CACHE_NAME, [(href (resolve site "/offline.html"), page "offline")])] [].

End Sample.

(** ** Store lemmas *)

Open Scope list_scope.

Lemma assoc_app {V} (k : string) (l1 l2 : list (string * V)) :
  assoc k (l1 ++ l2) = match assoc k l1 with Some v => Some v | None => assoc k l2 end.
Proof.
  induction l1 as [|[k' v'] l1 IH]; simpl; [reflexivity|].
  destruct (String.eqb k k'); [reflexivity | exact IH].
Qed.

Lemma store_of_open (name n : string) (cs : CacheStorage) :
  store_of (open_cs name cs) n = store_of cs n.
Proof.
  unfold open_cs, has_store.
  destruct (assoc name cs) eqn:E; [reflexivity|].
  unfold store_of. rewrite assoc_app.
  destruct (assoc n cs); [reflexivity|]. simpl.
  destruct (String.eqb n name); reflexivity.
Qed.

Lemma match_all_app (l1 l2 : CacheStorage) (r : Request) :
  match_all (l1 ++ l2) r =
  match match_all l1 r with Some v => Some v | None => match_all l2 r end.
Proof.
  induction l1 as [|[n s] l1 IH]; simpl; [reflexivity|].
  destruct (store_match s r); [reflexivity | exact IH].
Qed.

Lemma match_all_open (name : string) (cs : CacheStorage) (r : Request) :
  match_all (open_cs name cs) r = match_all cs r.
Proof.
  unfold open_cs. destruct (has_store cs name); [reflexivity|].
  rewrite match_all_app. simpl.
  assert (Hn : store_match [] r = None)
    by (unfold store_match; destruct (String.eqb (method r) "GET"); reflexivity).
  rewrite Hn. destruct (match_all cs r); reflexivity.
Qed.

Ltac run_sw :=
  unfold caches_open, cache_match, caches_match, cache_put, fetch, caches_keys,
    caches_delete, skipWaiting, clients_claim, lift_some, bind, emit,
    modify_caches, get_caches, ret in *; simpl in *.

(** ** Cache-first strategy *)

(** C5: a same-origin GET asset request (not navigation, not under /api/)
    whose URL is in the static store is answered by the fetch listener with
    the stored response, and no network fetch is made. *)
Theorem cacheFirst_hit_no_network (location : URL) (network : Request -> option Response)
    (request : Request) (w : World) (c : Response)
    (Horig : String.eqb (origin (req_url request)) (origin location) = true)
    (Hapi : includes "/api/" (href (req_url request)) = false)
    (Hget : method request = "GET")
    (Hnav : String.eqb (mode request) "navigate" = false)
    (Hhit : store_match (store_of (caches w) CACHE_NAME) request = Some c) :
  on_fetch location network request = RespondWith (lift_some (cacheFirst location network request CACHE_NAME)) /\
  fst (lift_some (cacheFirst location network request CACHE_NAME) w) = Some c /\
  exists evs, log (snd (lift_some (cacheFirst location network request CACHE_NAME) w)) = evs ++ log w
              /\ forall k, ~ In (EvFetch k) evs.
Proof.
  split.
  { unfold on_fetch. rewrite Horig, Hapi, Hget, Hnav. reflexivity. }
  unfold cacheFirst. run_sw. rewrite store_of_open, Hhit. simpl.
  split; [reflexivity|].
  exists [EvMatch CACHE_NAME (href (req_url request)); EvOpen CACHE_NAME].
  split; [reflexivity|].
  intros k [H|[H|[]]]; discriminate.
Qed.

Lemma cacheFirst_miss_failure (location : URL) (network : Request -> option Response)
    (request : Request) (cacheName : string) (w : World) :
  store_match (store_of (caches w) cacheName) request = None ->
  network request = None ->
  fst (cacheFirst location network request cacheName w) =
    match store_match (store_of (caches w) cacheName) (get_request location "/offline.html") with
    | Some p => p
    | None => offline_503
    end.
Proof.
  intros Hmiss Hnet.
  unfold cacheFirst. run_sw. rewrite !store_of_open, Hmiss, Hnet. simpl.
  rewrite !store_of_open.
  destruct (store_match (store_of (caches w) cacheName) (get_request location "/offline.html")); reflexivity.
Qed.

(** C7: on a cache miss with a rejecting network fetch, cache-first answers
    with the store's own "/offline.html" entry, or else the synthetic
    plain-text 503 response. *)
Theorem cacheFirst_network_failure (location : URL) (network : Request -> option Response)
    (request : Request) (cacheName : string) (w : World)
    (Hmiss : store_match (store_of (caches w) cacheName) request = None)
    (Hnet : network request = None) :
  fst (cacheFirst location network request cacheName w) =
    match store_match (store_of (caches w) cacheName) (get_request location "/offline.html") with
    | Some p => p
    | None => offline_503
    end /\
  status offline_503 = 503%Z /\
  headers offline_503 = [("Content-Type", "text/plain")] /\
  body offline_503 = "Offline - Content not available".
Proof.
  split; [apply cacheFirst_miss_failure; assumption|].
  repeat split.
Qed.

(** ** Network-first strategy *)

(** C6: when the network fetch of a navigation request rejects,
    network-first answers with the runtime store's copy of the request, else
    the first cached "/offline.html", else the first cached "/index.html"
    (any store), else the synthetic 503; it always yields a response. *)
Theorem networkFirst_navigation_fallback (location : URL)
    (network : Request -> option Response) (request : Request) (w : World)
    (Hnet : network request = None)
    (Hnav : mode request = "navigate") :
  fst (networkFirst location network request w) =
    match store_match (store_of (caches w) RUNTIME_CACHE) request with
    | Some c => c
    | None =>
        match match_all (caches w) (get_request location "/offline.html") with
        | Some p => p
        | None =>
            match match_all (caches w) (get_request location "/index.html") with
            | Some p => p
            | None => networkFirst_503
            end
        end
    end.
Proof.
  unfold networkFirst. run_sw. rewrite Hnet. simpl.
  rewrite store_of_open.
  destruct (store_match (store_of (caches w) RUNTIME_CACHE) request); [reflexivity|].
  rewrite Hnav. simpl. rewrite match_all_open.
  destruct (match_all (caches w) (get_request location "/offline.html")); [reflexivity|].
  simpl. rewrite match_all_open.
  destruct (match_all (caches w) (get_request location "/index.html")); reflexivity.
Qed.

(** C10: an allow-listed cross-origin request is served cache-first against
    the runtime store; when it is not cached there, the network rejects and
    the runtime store has no "/offline.html", the answer is the synthetic
    503, whatever the static store holds. *)
Theorem external_offline_ignores_static (location : URL)
    (network : Request -> option Response) (request : Request) (w : World)
    (Hcross : String.eqb (origin (req_url request)) (origin location) = false)
    (Hallow : shouldCacheExternal (req_url request) = true)
    (Hmiss : store_match (store_of (caches w) RUNTIME_CACHE) request = None)
    (Hnooff : store_match (store_of (caches w) RUNTIME_CACHE)
                (get_request location "/offline.html") = None)
    (Hnet : network request = None) :
  on_fetch location network request =
    RespondWith (lift_some (cacheFirst location network request RUNTIME_CACHE)) /\
  fst (lift_some (cacheFirst location network request RUNTIME_CACHE) w) = Some offline_503.
Proof.
  split.
  { unfold on_fetch. rewrite Hcross, Hallow. reflexivity. }
  pose proof (cacheFirst_miss_failure location network request RUNTIME_CACHE w Hmiss Hnet)
    as H.
  rewrite Hnooff in H.
  unfold lift_some, bind, ret.
  destruct (cacheFirst location network request RUNTIME_CACHE w) as [r w'].
  simpl in *. subst. reflexivity.
Qed.

(** ** Activation *)

Definition keep (n : string) : bool :=
  String.eqb n CACHE_NAME || String.eqb n RUNTIME_CACHE.

Lemma mapM_cons_snd {A} (f : A -> M unit) (x : A) (xs : list A) (w : World) :
  snd (mapM_ f (x :: xs) w) = snd (mapM_ f xs (snd (f x w))).
Proof. simpl. unfold bind. destruct (f x w). reflexivity. Qed.

Lemma in_names_filter (x n : string) (l : CacheStorage) :
  In n (map fst (filter (fun p => negb (String.eqb x (fst p))) l)) ->
  In n (map fst l) /\ n <> x.
Proof.
  induction l as [|[k s] l IH]; simpl; [tauto|].
  destruct (String.eqb x k) eqn:E; simpl.
  - intros H. destruct (IH H). split; [right|]; assumption.
  - intros [H|H].
    + subst. split; [left; reflexivity|].
      intros ->. rewrite String.eqb_refl in E. discriminate.
    + destruct (IH H). split; [right|]; assumption.
Qed.

Lemma activate_loop_names (names : list string) (w : World) (n : string) :
  In n (map fst (caches (snd (mapM_ activate_one names w)))) ->
  In n (map fst (caches w)) /\ (keep n = true \/ ~ In n names).
Proof.
  revert w. induction names as [|x xs IH]; intros w H.
  - simpl in H. split; [exact H | right; intros []].
  - rewrite mapM_cons_snd in H. apply IH in H as [H1 H2].
    unfold activate_one, keep in *.
    destruct (negb (String.eqb x CACHE_NAME) && negb (String.eqb x RUNTIME_CACHE)) eqn:E.
    + run_sw. apply in_names_filter in H1 as [H1 Hne].
      split; [exact H1|].
      destruct H2 as [H2|H2]; [left; exact H2|].
      right. intros [Hx|Hx]; [congruence | contradiction].
    + run_sw. split; [exact H1|].
      destruct H2 as [H2|H2]; [left; exact H2|].
      destruct (String.eqb x n) eqn:Exn.
      * apply String.eqb_eq in Exn. subst. left.
        destruct (String.eqb n CACHE_NAME); destruct (String.eqb n RUNTIME_CACHE);
          simpl in *; congruence.
      * right. intros [Hx|Hx]; [|contradiction].
        subst. rewrite String.eqb_refl in Exn. discriminate.
Qed.

Lemma activate_keeps_current (w : World) :
  Forall (fun n => keep n = true) (map fst (caches (snd (on_activate w)))).
Proof.
  apply Forall_forall. intros n H.
  unfold on_activate in H. run_sw.
  destruct (mapM_ activate_one (map fst (caches w))
              {| caches := caches w; log := EvKeys :: log w |}) as [u w1] eqn:E.
  simpl in H.
  assert (H' : In n (map fst (caches (snd (mapM_ activate_one (map fst (caches w))
              {| caches := caches w; log := EvKeys :: log w |})))))
    by (rewrite E; exact H).
  apply activate_loop_names in H' as [H1 [H2|H2]]; [exact H2 | contradiction].
Qed.

Lemma activate_loop_kept (names : list string) (w : World) :
  Forall (fun n => keep n = true) names -> mapM_ activate_one names w = (tt, w).
Proof.
  revert w. induction names as [|x xs IH]; intros w H; [reflexivity|].
  inversion H as [|? ? Hx Hxs]; subst.
  simpl. unfold bind, activate_one.
  unfold keep in Hx.
  destruct (String.eqb x CACHE_NAME); destruct (String.eqb x RUNTIME_CACHE);
    simpl in *; try discriminate; unfold ret; apply IH; exact Hxs.
Qed.

(** C8: after the activate listener has run, every store left in Cache
    Storage is named exactly CACHE_NAME or RUNTIME_CACHE. *)
Theorem activate_version_isolation (w : World) :
  Forall (fun n => n = CACHE_NAME \/ n = RUNTIME_CACHE)
    (map fst (caches (snd (on_activate w)))).
Proof.
  eapply Forall_impl; [|apply activate_keeps_current].
  intros n K. unfold keep in K.
  apply Bool.orb_true_iff in K as [K|K]; apply String.eqb_eq in K; [left|right]; exact K.
Qed.

(** C9: a second run of the activate listener, with the version unchanged,
    deletes no store and leaves Cache Storage as the first run left it. *)
Theorem activate_idempotent (w0 : World) :
  let w1 := snd (on_activate w0) in
  let w2 := snd (on_activate w1) in
  caches w2 = caches w1 /\
  exists evs, log w2 = evs ++ log w1 /\ forall n, ~ In (EvDelete n) evs.
Proof.
  intros w1 w2.
  pose proof (activate_keeps_current w0) as K. fold w1 in K.
  unfold w2, on_activate. run_sw.
  rewrite (activate_loop_kept _ _ K). simpl.
  split; [reflexivity|].
  exists [EvClaim; EvKeys]. split; [reflexivity|].
  intros n [H|[H|[]]]; discriminate.
Qed.

(** ** Installation *)

Definition fetch_log (location : URL) (paths : list string) : list Event :=
  rev (map (fun p => EvFetch (href (req_url (get_request location p)))) paths).

Lemma fetch_all_run (location : URL) (network : Request -> option Response)
    (paths : list string) (w : World) :
  fetch_all location network paths w =
    (map (fun p => (get_request location p, network (get_request location p))) paths,
     mkWorld (caches w) (fetch_log location paths ++ log w)).
Proof.
  revert w. induction paths as [|p ps IH]; intros w; [destruct w; reflexivity|].
  simpl. unfold bind, fetch, emit, ret. simpl. rewrite IH. simpl.
  unfold fetch_log. simpl. rewrite <- app_assoc. reflexivity.
Qed.

(** C1 (as the code does it): when one precache URL fails to fetch or
    answers a non-ok status, the install listener stores nothing (Cache
    Storage only gains the static store, created empty if it was absent),
    does not call skipWaiting, and its [.catch] turns the failure into a
    fulfilled waitUntil promise. *)
Theorem install_failure_no_commit (location : URL) (network : Request -> option Response)
    (w : World)
    (Hfail : exists p, In p PRECACHE_ASSETS /\
               match network (get_request location p) with
               | Some v => ok v = false
               | None => True
               end) :
  fst (on_install location network w) = Fulfilled /\
  caches (snd (on_install location network w)) = open_cs CACHE_NAME (caches w) /\
  store_of (caches (snd (on_install location network w))) CACHE_NAME =
    store_of (caches w) CACHE_NAME /\
  exists evs, log (snd (on_install location network w)) = evs ++ log w /\
              ~ In EvSkipWaiting evs.
Proof.
  assert (Hall : all_ok (map (fun p => (get_request location p, network (get_request location p)))
                            PRECACHE_ASSETS) = false).
  { destruct Hfail as [p [Hin Hp]].
    destruct (all_ok _) eqn:E; [|reflexivity].
    unfold all_ok in E. rewrite forallb_forall in E.
    assert (Hm : In (get_request location p, network (get_request location p))
                    (map (fun p => (get_request location p, network (get_request location p)))
                       PRECACHE_ASSETS))
      by (apply (in_map (fun p => (get_request location p, network (get_request location p))));
          exact Hin).
    specialize (E _ Hm). simpl in E.
    destruct (network (get_request location p)) as [v|]; [congruence | discriminate]. }
  unfold on_install, cache_addAll, caches_open, bind, emit, modify_caches.
  rewrite fetch_all_run, Hall. unfold ret. cbn [caches log fst snd].
  split; [reflexivity|]. split; [reflexivity|]. split; [apply store_of_open|].
  exists (fetch_log location PRECACHE_ASSETS ++ [EvOpen CACHE_NAME]).
  split; [rewrite <- app_assoc; reflexivity|].
  intros H. apply in_app_or in H as [H|[H|[]]]; [|discriminate].
  unfold fetch_log in H. apply in_rev in H. apply in_map_iff in H as [q [Hq _]].
  discriminate.
Qed.

(** ** Cross-origin routing *)

Lemma prefix_app (s t : string) : String.prefix s (s ++ t)%string = true.
Proof.
  induction s as [|a s IH]; simpl; [destruct t; reflexivity|].
  destruct (Ascii.ascii_dec a a) as [_|n]; [exact IH | contradiction].
Qed.

(** C4 (as the code does it): a cross-origin request is answered, cache-first
    against the runtime store, exactly when its full URL string starts with
    one of the allow-listed prefixes, and gets no respondWith otherwise; so
    every request whose origin is allow-listed is intercepted, but the test
    is a string prefix on the href, not an origin comparison. *)
Theorem cross_origin_routing (location : URL) (network : Request -> option Response)
    (request : Request)
    (Hcross : String.eqb (origin (req_url request)) (origin location) = false) :
  on_fetch location network request =
    (if existsb (fun p => String.prefix p (href (req_url request))) RUNTIME_CACHE_URLS
     then RespondWith (lift_some (cacheFirst location network request RUNTIME_CACHE))
     else NoRespond) /\
  (In (origin (req_url request)) RUNTIME_CACHE_URLS ->
   shouldCacheExternal (req_url request) = true).
Proof.
  split.
  - unfold on_fetch. rewrite Hcross. reflexivity.
  - intros Hin. unfold shouldCacheExternal, startsWith.
    apply existsb_exists. exists (origin (req_url request)).
    split; [exact Hin|]. unfold href. apply prefix_app.
Qed.

(** ** Concrete runs *)

Module Runs.
Import Sample.

(** C1: with "/assets/css/main.css" answering 404, the install listener's
    promise does not reject: the [.catch] handles the addAll rejection. *)
Lemma install_404_not_rejected :
  fst (on_install site (one_404 "/assets/css/main.css") empty_world) <> Rejected /\
  store_of (caches (snd (on_install site (one_404 "/assets/css/main.css") empty_world)))
    CACHE_NAME = [].
Proof. vm_compute. split; [discriminate | reflexivity]. Qed.

Lemma install_failure_no_commit_witness :
  (exists p, In p PRECACHE_ASSETS /\
     match one_404 "/assets/css/main.css" (get_request site p) with
     | Some v => ok v = false | None => True end) /\
  fst (on_install site (one_404 "/assets/css/main.css") empty_world) = Fulfilled.
Proof.
  assert (H : exists p, In p PRECACHE_ASSETS /\
     match one_404 "/assets/css/main.css" (get_request site p) with
     | Some v => ok v = false | None => True end).
  { exists "/assets/css/main.css". split.
    - right. right. left. reflexivity.
    - vm_compute. reflexivity. }
  split; [exact H|].
  apply (install_failure_no_commit site (one_404 "/assets/css/main.css") empty_world H).
Defined.

(** C2: a same-origin POST to an API path is routed to network-first, which
    looks it up in the runtime store when the network rejects (and then
    serves the cached shell "/index.html"), and calls cache.put on the
    runtime store with it when the network answers ok. *)
Theorem post_api_goes_through_runtime_cache (network : Request -> option Response) :
  on_fetch site network api_post = RespondWith (lift_some (networkFirst site network api_post)) /\
  In (EvMatch RUNTIME_CACHE (href (req_url api_post)))
     (log (snd (networkFirst site offline api_post installed_world))) /\
  fst (networkFirst site offline api_post installed_world) = page "https://ai-interior.example/index.html" /\
  In (EvPut RUNTIME_CACHE (href (req_url api_post)))
     (log (snd (networkFirst site online api_post empty_world))).
Proof.
  split; [reflexivity|].
  vm_compute. split; [tauto|]. split; [reflexivity | tauto].
Qed.

(** C3: "/offline.html" is not in the precache list, and after a successful
    install the static store has no entry for it. *)
Theorem offline_page_not_precached :
  ~ In "/offline.html" PRECACHE_ASSETS /\
  store_match (store_of (caches installed_world) CACHE_NAME) (get_request site "/offline.html") = None /\
  length (store_of (caches installed_world) CACHE_NAME) = length PRECACHE_ASSETS.
Proof.
  split.
  - vm_compute. intros H. repeat (destruct H as [H|H]; [discriminate|]). exact H.
  - vm_compute. split; reflexivity.
Qed.

(** C4: a look-alike host whose origin is not in the allow-list is still
    intercepted, because its href starts with an allow-listed prefix. *)
Lemma lookalike_host_intercepted :
  ~ In (origin (req_url lookalike)) RUNTIME_CACHE_URLS /\
  on_fetch site online lookalike <> NoRespond.
Proof.
  split.
  - vm_compute. intros H. repeat (destruct H as [H|H]; [discriminate|]). exact H.
  - vm_compute. discriminate.
Qed.

Lemma cross_origin_routing_witness :
  String.eqb (origin (req_url font_css)) (origin site) = false /\
  on_fetch site online font_css =
    RespondWith (lift_some (cacheFirst site online font_css RUNTIME_CACHE)).
Proof.
  assert (H : String.eqb (origin (req_url font_css)) (origin site) = false) by reflexivity.
  split; [exact H|].
  destruct (cross_origin_routing site online font_css H) as [E _].
  rewrite E. reflexivity.
Defined.

Lemma cacheFirst_hit_no_network_witness :
  on_fetch site offline main_css =
    RespondWith (lift_some (cacheFirst site offline main_css CACHE_NAME)) /\
  fst (lift_some (cacheFirst site offline main_css CACHE_NAME) installed_world) =
    Some (page "https://ai-interior.example/assets/css/main.css") /\
  exists evs, log (snd (lift_some (cacheFirst site offline main_css CACHE_NAME) installed_world))
                = evs ++ log installed_world /\ forall k, ~ In (EvFetch k) evs.
Proof.
  apply (cacheFirst_hit_no_network site offline main_css installed_world
           (page "https://ai-interior.example/assets/css/main.css"));
    vm_compute; reflexivity.
Defined.

Lemma cacheFirst_network_failure_witness :
  fst (cacheFirst site offline main_css RUNTIME_CACHE installed_world) = offline_503.
Proof.
  destruct (cacheFirst_network_failure site offline main_css RUNTIME_CACHE installed_world)
    as [H _]; [vm_compute; reflexivity | reflexivity |].
  rewrite H. vm_compute. reflexivity.
Defined.

Lemma networkFirst_navigation_fallback_witness :
  fst (networkFirst site offline about_page installed_world) =
    page "https://ai-interior.example/index.html".
Proof.
  rewrite (networkFirst_navigation_fallback site offline about_page installed_world);
    [vm_compute; reflexivity | reflexivity | reflexivity].
Defined.

Lemma external_offline_ignores_static_witness :
  store_match (store_of (caches static_offline_world) CACHE_NAME)
    (get_request site "/offline.html") = Some (page "offline") /\
  fst (lift_some (cacheFirst site offline font_css RUNTIME_CACHE) static_offline_world) =
    Some offline_503.
Proof.
  split; [vm_compute; reflexivity|].
  apply (external_offline_ignores_static site offline font_css static_offline_world);
    vm_compute; reflexivity.
Defined.

End Runs.

(** ** Further properties of sw.js *)

(** *** Store lemmas for writes *)

Lemma assoc_filter_neq {V} (x k : string) (l : list (string * V)) :
  String.eqb k x = false ->
  assoc k (filter (fun p => negb (String.eqb x (fst p))) l) = assoc k l.
Proof.
  intros Hk. induction l as [|[k0 v] l IH]; simpl; [reflexivity|].
  destruct (String.eqb x k0) eqn:E; simpl.
  - apply String.eqb_eq in E. subst. rewrite Hk. exact IH.
  - rewrite IH. reflexivity.
Qed.











Section PutAll.

Variable location : URL.
Variable network : Request -> option Response.
Variable name : string.



End PutAll.

(** *** cache.addAll *)


Lemma cache_addAll_fail (location : URL) (network : Request -> option Response)
    (name : string) (paths : list string) (w : World) :
  (exists p, In p paths /\
     match network (get_request location p) with Some v => ok v = false | None => True end) ->
  cache_addAll location network name paths w =
  (Rejected, mkWorld (caches w) (fetch_log location paths ++ log w)).
Proof.
  intros [p [Hin Hp]].
  assert (Hall : all_ok (map (fun p => (get_request location p, network (get_request location p)))
                            paths) = false).
  { destruct (all_ok _) eqn:E; [|reflexivity].
    unfold all_ok in E. rewrite forallb_forall in E.
    assert (Hm : In (get_request location p, network (get_request location p))
                    (map (fun p => (get_request location p, network (get_request location p)))
                       paths))
      by (apply (in_map (fun p => (get_request location p, network (get_request location p))));
          exact Hin).
    specialize (E _ Hm). simpl in E.
    destruct (network (get_request location p)) as [v|]; [congruence | discriminate]. }
  unfold cache_addAll. unfold bind at 1. rewrite fetch_all_run, Hall. reflexivity.
Qed.

(** *** Installation and warm-up messages *)


Lemma on_message_cache_urls (location : URL) (network : Request -> option Response)
    (urls : option (list string)) (w : World) :
  on_message location network (Some (mkMessageData (Some "CACHE_URLS") urls)) w =
  bind (cache_addAll location network RUNTIME_CACHE
          (match urls with Some us => us | None => [] end)) (fun _ => ret tt)
    (mkWorld (open_cs RUNTIME_CACHE (caches w)) (EvOpen RUNTIME_CACHE :: log w)).
Proof. reflexivity. Qed.


(** A CACHE_URLS message with one failing URL stores nothing: Cache Storage
    only gains an empty runtime store if it had none. *)
Theorem cache_urls_message_all_or_nothing (location : URL)
    (network : Request -> option Response) (us : list string) (w : World)
    (Hfail : exists p, In p us /\
               match network (get_request location p) with
               | Some v => ok v = false | None => True end) :
  caches (snd (on_message location network (Some (mkMessageData (Some "CACHE_URLS") (Some us))) w))
  = open_cs RUNTIME_CACHE (caches w).
Proof.
  rewrite on_message_cache_urls. unfold bind at 1.
  rewrite cache_addAll_fail by exact Hfail. reflexivity.
Qed.

(** A CACHE_URLS message without a [urls] field fetches nothing and only
    makes sure the runtime store exists. *)
Theorem cache_urls_message_without_urls (location : URL)
    (network : Request -> option Response) (w : World) :
  snd (on_message location network (Some (mkMessageData (Some "CACHE_URLS") None)) w) =
  mkWorld (open_cs RUNTIME_CACHE (caches w)) (EvOpen RUNTIME_CACHE :: log w).
Proof. reflexivity. Qed.

(** *** CLEAR_CACHE and the other control messages *)

Lemma delete_loop_names (names : list string) (w : World) (n : string) :
  In n (map fst (caches (snd (mapM_ caches_delete names w)))) ->
  In n (map fst (caches w)) /\ ~ In n names.
Proof.
  revert w. induction names as [|x xs IH]; intros w H.
  - split; [exact H | intros []].
  - rewrite mapM_cons_snd in H. apply IH in H as [H1 H2].
    unfold caches_delete, bind, emit, modify_caches in H1. simpl in H1.
    apply in_names_filter in H1 as [H1 Hne].
    split; [exact H1|]. intros [Hx|Hx]; [congruence | contradiction].
Qed.

Lemma cacheFirst_miss_fetches (location : URL) (network : Request -> option Response)
    (request : Request) (cacheName : string) (w : World) :
  store_match (store_of (caches w) cacheName) request = None ->
  In (EvFetch (href (req_url request))) (log (snd (cacheFirst location network request cacheName w))).
Proof.
  intros Hmiss. unfold cacheFirst. run_sw. rewrite store_of_open, Hmiss. simpl.
  destruct (network request) as [v|]; simpl.
  - destruct (ok v); [destruct (String.eqb (method request) "GET")|]; simpl;
      repeat first [left; reflexivity | right].
  - destruct (store_match (store_of (open_cs cacheName (caches w)) cacheName)
                (get_request location "/offline.html")); simpl;
      repeat first [left; reflexivity | right].
Qed.

(** A CLEAR_CACHE message deletes every store; afterwards the cache-first
    strategy finds nothing and goes to the network for any request. *)
Theorem clear_cache_message_empties (location : URL) (network : Request -> option Response)
    (w : World) :
  let w' := snd (on_message location network (Some (mkMessageData (Some "CLEAR_CACHE") None)) w) in
  caches w' = [] /\
  forall (request : Request) (cacheName : string),
    In (EvFetch (href (req_url request)))
       (log (snd (cacheFirst location network request cacheName w'))).
Proof.
  intros w'.
  assert (Hrun : w' = snd (mapM_ caches_delete (map fst (caches w))
                             (mkWorld (caches w) (EvKeys :: log w)))).
  { subst w'. unfold on_message, clear_all_caches, caches_keys, bind, emit, get_caches, ret.
    simpl. destruct (mapM_ caches_delete _ _). reflexivity. }
  assert (Hnil : caches w' = []).
  { destruct (caches w') as [|[n s] rest] eqn:E; [reflexivity|].
    exfalso. rewrite Hrun in E.
    assert (Hn : In n (map fst (caches (snd (mapM_ caches_delete (map fst (caches w))
                                              (mkWorld (caches w) (EvKeys :: log w)))))))
      by (rewrite E; left; reflexivity).
    apply delete_loop_names in Hn as [H1 H2]. exact (H2 H1). }
  split; [exact Hnil|].
  intros request cacheName. apply cacheFirst_miss_fetches.
  rewrite Hnil. unfold store_of, store_match. simpl.
  destruct (String.eqb (method request) "GET"); reflexivity.
Qed.

(** SKIP_WAITING only calls skipWaiting; a message without data, or whose
    type is none of the three commands, changes nothing. *)
Theorem control_messages (location : URL) (network : Request -> option Response)
    (w : World) (d : MessageData)
    (Hother : type_is d "SKIP_WAITING" = false /\ type_is d "CLEAR_CACHE" = false /\
              type_is d "CACHE_URLS" = false) :
  snd (on_message location network (Some (mkMessageData (Some "SKIP_WAITING") None)) w) =
    mkWorld (caches w) (EvSkipWaiting :: log w) /\
  snd (on_message location network None w) = w /\
  snd (on_message location network (Some d) w) = w.
Proof.
  destruct Hother as [H1 [H2 H3]].
  split; [reflexivity|]. split; [destruct w; reflexivity|].
  unfold on_message. rewrite H1, H2, H3. destruct w; reflexivity.
Qed.

(** *** Write-back of the strategies *)




(** When the network rejects a request that is not a navigation and the
    runtime store has no copy of it, network-first answers the plain 503
    "Offline": its only cache access is the runtime-store lookup, and no
    offline page or shell document is consulted. *)
Theorem networkFirst_non_navigation_failure (location : URL)
    (network : Request -> option Response) (request : Request) (w : World)
    (Hnet : network request = None)
    (Hnav : String.eqb (mode request) "navigate" = false)
    (Hmiss : store_match (store_of (caches w) RUNTIME_CACHE) request = None) :
  networkFirst location network request w =
    (networkFirst_503,
     mkWorld (open_cs RUNTIME_CACHE (caches w))
       (EvMatch RUNTIME_CACHE (href (req_url request)) :: EvFetch (href (req_url request))
          :: EvOpen RUNTIME_CACHE :: log w)) /\
  status networkFirst_503 = 503%Z /\ body networkFirst_503 = "Offline".
Proof.
  split; [|split; reflexivity].
  unfold networkFirst. run_sw. rewrite Hnet. simpl. rewrite store_of_open, Hmiss, Hnav.
  reflexivity.
Qed.

(** A same-origin request that is not a GET and not under /api/ is answered
    by a plain network fetch: the answer (or the rejection) of the network,
    with Cache Storage untouched. *)
Theorem non_get_same_origin_passthrough (location : URL)
    (network : Request -> option Response) (request : Request) (w : World)
    (Horig : String.eqb (origin (req_url request)) (origin location) = true)
    (Hapi : includes "/api/" (href (req_url request)) = false)
    (Hpost : String.eqb (method request) "GET" = false) :
  exists p, on_fetch location network request = RespondWith p /\
    p w = (network request, mkWorld (caches w) (EvFetch (href (req_url request)) :: log w)).
Proof.
  exists (fetch network request). split.
  - unfold on_fetch. rewrite Horig, Hapi, Hpost. reflexivity.
  - reflexivity.
Qed.

Lemma activate_loop_preserves_kept (names : list string) (w : World) (n : string) :
  keep n = true ->
  assoc n (caches (snd (mapM_ activate_one names w))) = assoc n (caches w).
Proof.
  intros Hk. revert w. induction names as [|x xs IH]; intros w; [reflexivity|].
  rewrite mapM_cons_snd, IH. unfold activate_one.
  destruct (negb (String.eqb x CACHE_NAME) && negb (String.eqb x RUNTIME_CACHE)) eqn:E;
    [|reflexivity].
  unfold caches_delete, bind, emit, modify_caches. simpl.
  apply assoc_filter_neq.
  destruct (String.eqb n x) eqn:Enx; [|reflexivity].
  apply String.eqb_eq in Enx. subst. unfold keep in Hk.
  destruct (String.eqb x CACHE_NAME); destruct (String.eqb x RUNTIME_CACHE);
    simpl in *; congruence.
Qed.

(** Activation keeps the current version's static and runtime stores with
    their contents. *)
Theorem activate_keeps_current_contents (w : World) :
  assoc CACHE_NAME (caches (snd (on_activate w))) = assoc CACHE_NAME (caches w) /\
  assoc RUNTIME_CACHE (caches (snd (on_activate w))) = assoc RUNTIME_CACHE (caches w).
Proof.
  unfold on_activate. run_sw.
  destruct (mapM_ activate_one (map fst (caches w))
              {| caches := caches w; log := EvKeys :: log w |}) as [u w1] eqn:E.
  simpl.
  pose proof (activate_loop_preserves_kept (map fst (caches w))
                {| caches := caches w; log := EvKeys :: log w |}) as P.
  rewrite E in P. simpl in P.
  split; apply P; reflexivity.
Qed.

(** *** Push notifications *)


(** ** Concrete runs of the further properties *)

Module ExtraRuns.
Import Sample.



Lemma cache_urls_message_all_or_nothing_witness :
  caches (snd (on_message site (one_404 "/b")
     (Some (mkMessageData (Some "CACHE_URLS") (Some ["/a"; "/b"]))) empty_world))
  = [(RUNTIME_CACHE, [])].
Proof.
  rewrite (cache_urls_message_all_or_nothing site (one_404 "/b") ["/a"; "/b"] empty_world).
  - reflexivity.
  - exists "/b". split; [right; left; reflexivity | vm_compute; reflexivity].
Defined.

Lemma control_messages_witness :
  snd (on_message site online (Some (mkMessageData (Some "PING") None)) installed_world)
  = installed_world.
Proof.
  destruct (control_messages site online installed_world (mkMessageData (Some "PING") None))
    as [_ [_ H]].
  - split; [reflexivity | split; reflexivity].
  - exact H.
Defined.



Lemma networkFirst_non_navigation_failure_witness :
  fst (networkFirst site offline main_css installed_world) = networkFirst_503.
Proof.
  destruct (networkFirst_non_navigation_failure site offline main_css installed_world)
    as [E _]; [reflexivity | reflexivity | vm_compute; reflexivity |].
  rewrite E. reflexivity.
Defined.

Lemma non_get_same_origin_passthrough_witness :
  exists p, on_fetch site offline (mkRequest (resolve site "/contact") "POST" "navigate")
              = RespondWith p /\
    p installed_world =
      (None, mkWorld (caches installed_world)
               (EvFetch "https://ai-interior.example/contact" :: log installed_world)).
Proof.
  apply (non_get_same_origin_passthrough site offline
           (mkRequest (resolve site "/contact") "POST" "navigate") installed_world);
    reflexivity.
Defined.

End ExtraRuns.
